(** * The [oras copy] command: a model of cmd/oras/copy.go

    The command copies a manifest (and, with [--recursive], the artifacts that
    refer to it) from one repository to another.  All the work on the wire is
    done by collaborators outside copy.go: the repository clients, the graph
    copy primitives of oras-go, the display helper, [fmt.Println].  copy.go
    decides which of them to call, with which arguments and in which order,
    and what to do with the errors they report.

    The model keeps that split.  A collaborator call is an event of a small
    free monad; the orchestrator is a program over these events, and a run
    of it against an arbitrary environment yields the trace of the calls that
    were made together with the value [runCopy] returns. *)

From Stdlib Require Import String List.
From stdpp Require Import base option list strings gmap.

Local Open Scope string_scope.

(** ** Programs over collaborator calls *)

Inductive Prog (E : Type -> Type) (A : Type) : Type :=
| Ret (a : A)
| Vis {X : Type} (e : E X) (k : X -> Prog E A).

Arguments Ret {E A} a.
Arguments Vis {E A X} e k.

Fixpoint bind {E A B} (p : Prog E A) (f : A -> Prog E B) : Prog E B :=
  match p with
  | Ret a => f a
  | Vis e k => Vis e (fun x => bind (k x) f)
  end.

Definition trigger {E X} (e : E X) : Prog E X := Vis e Ret.

#[export] Instance Prog_ret {E} : MRet (Prog E) := fun _ a => Ret a.
#[export] Instance Prog_bind {E} : MBind (Prog E) := fun _ _ f p => bind p f.

(** One call that was made, with the answer it got. *)
Inductive Call (E : Type -> Type) : Type :=
| Answered {X : Type} (e : E X) (x : X).

Arguments Answered {E X} e x.

(** An environment answers every call from its current state. *)
Definition Handler (E : Type -> Type) (S : Type) : Type :=
  forall X, E X -> S -> X * S.

(** Running a program: the calls made, in order, and the returned value. *)
Fixpoint exec {E A S} (h : Handler E S) (p : Prog E A) (s : S)
  : list (Call E) * A :=
  match p with
  | Ret a => ([], a)
  | Vis e k =>
      let '(x, s') := h _ e s in
      let '(t, a) := exec h (k x) s' in
      (Answered e x :: t, a)
  end.

(** ** Data of the collaborating packages *)

Module registry.
(** registry.Reference of oras-go: a repository locator and its optional
    tag or digest, the "reference string". *)
Record Reference : Type := {
  Registry : string;
  Repository : string;
  Reference_ : string
}.
End registry.

Module ocispec.
(** The annotation key that carries the human-readable title. *)
Definition AnnotationTitle : string := "org.opencontainers.image.title".

Record Descriptor : Type := {
  MediaType : string;
  Digest : string;
  Size : Z;
  Annotations : gmap string string
}.
End ocispec.

Module remote.
(** remote.Repository: copy.go reads nothing of a client but its parsed
    reference. *)
Record Repository : Type := {
  Reference : registry.Reference
}.
End remote.

(** Go's [error] values.  [newErrInvalidReference] is declared elsewhere in
    package main; cobra rejects a command line that is too short; every other
    error comes out of a collaborator. *)
Inductive error : Type :=
| ErrInvalidReference (ref : registry.Reference)
| ErrTooFewArgs (required received : nat)
| ErrCollaborator (msg : string).

(** Modelled from the spec: [newErrInvalidReference] is declared in package
    main outside copy.go; its result is the InvalidReference error of the
    spec, raised for a source reference without tag or digest. *)
Definition newErrInvalidReference (ref : registry.Reference) : error :=
  ErrInvalidReference ref.

Module display.
(** Modelled from the spec: package display is declared outside copy.go.
    Its sink [Print] writes one line made of its operands (a status, a short
    digest, a label) and reports whether the write went through. *)
Inductive displayE : Type -> Type :=
| Print (a : list string) : displayE (option error).
End display.

Module cobra.
(** What copy.go fills in of a cobra.Command.  [RunE] yields no program when
    the Go closure would panic. *)
Record Command (R : Type) : Type := {
  Use : string;
  Aliases : list string;
  Short : string;
  Long : string;
  Args : list string -> option error;
  RunE : list string -> option R
}.
Arguments Use {R} c.
Arguments Aliases {R} c.
Arguments Short {R} c.
Arguments Long {R} c.
Arguments Args {R} c.
Arguments RunE {R} c.

(** cobra.MinimumNArgs: an error when fewer than [n] arguments are given. *)
Definition MinimumNArgs (n : nat) : list string -> option error := fun args =>
  if Nat.ltb (List.length args) n
  then Some (ErrTooFewArgs n (List.length args))
  else None.

(** cobra validates the positional arguments, then runs [RunE]. *)
Definition execute {E} (cmd : Command (Prog E (option error)))
  (args : list string) : option (Prog E (option error)) :=
  match Args cmd args with
  | Some e => Some (Ret (Some e))
  | None => RunE cmd args
  end.
End cobra.

Module optionpkg.
(** Modelled from the spec: option.Common is declared in package option,
    outside copy.go, which reads its verbose flag only. *)
Record Common : Type := {
  Verbose : bool
}.
End optionpkg.

(** ** The orchestrator *)

Section Orchestrator.

(** Left open: Go's [context.Context], the connection settings
    [option.Remote] of one side, and whatever a copy bundle of oras-go
    carries besides the two callback slots written here. *)
Variables Context Remote OtherOptions : Type.

(** A copy callback reports on one descriptor through the display sink. *)
Definition Callback : Type :=
  Context -> ocispec.Descriptor -> Prog display.displayE (option error).

(** The configuration bundles of oras-go.  A Go struct embedded in
    another appears as a field with a trailing underscore. *)
Record CopyGraphOptions : Type := {
  PreCopy : option Callback;
  OnCopySkipped : option Callback;
  Others : OtherOptions
}.

Record CopyOptions : Type := {
  CopyGraphOptions_ : CopyGraphOptions
}.

Record ExtendedCopyGraphOptions : Type := {
  ExtCopyGraphOptions_ : CopyGraphOptions
}.

Record ExtendedCopyOptions : Type := {
  ExtendedCopyGraphOptions_ : ExtendedCopyGraphOptions
}.

(** Assignment to a promoted field: [o.PreCopy = f], [o.OnCopySkipped = f]. *)
Definition set_PreCopy (f : Callback) (o : CopyGraphOptions) : CopyGraphOptions :=
  {| PreCopy := Some f; OnCopySkipped := OnCopySkipped o; Others := Others o |}.

Definition set_OnCopySkipped (f : Callback) (o : CopyGraphOptions) : CopyGraphOptions :=
  {| PreCopy := PreCopy o; OnCopySkipped := Some f; Others := Others o |}.

Definition over_graph (u : CopyGraphOptions -> CopyGraphOptions)
  (o : CopyOptions) : CopyOptions :=
  {| CopyGraphOptions_ := u (CopyGraphOptions_ o) |}.

Definition over_extended_graph (u : CopyGraphOptions -> CopyGraphOptions)
  (o : ExtendedCopyOptions) : ExtendedCopyOptions :=
  {| ExtendedCopyGraphOptions_ :=
      {| ExtCopyGraphOptions_ :=
          u (ExtCopyGraphOptions_ (ExtendedCopyGraphOptions_ o)) |} |}.

Record copyOptions : Type := {
  src : Remote;
  dst : Remote;
  Common_ : optionpkg.Common;
  rescursive : bool;
  srcRef : string;
  dstRef : string
}.

(** The calls copy.go makes.  A Go function returning [(v, err)] answers
    with the pair; [nil] is [None]. *)
Inductive copyE : Type -> Type :=
| SetLoggerLevel (c : optionpkg.Common) : copyE Context
| NewRepository (r : Remote) (reference : string) (c : optionpkg.Common)
  : copyE (remote.Repository * option error)
| Resolve (ctx : Context) (repo : remote.Repository) (reference : string)
  : copyE (ocispec.Descriptor * option error)
| Copy (ctx : Context) (s : remote.Repository) (sref : string)
    (d : remote.Repository) (dref : string) (o : CopyOptions)
  : copyE (ocispec.Descriptor * option error)
| CopyGraph (ctx : Context) (s d : remote.Repository)
    (root : ocispec.Descriptor) (o : CopyGraphOptions)
  : copyE (option error)
| ExtendedCopy (ctx : Context) (s : remote.Repository) (sref : string)
    (d : remote.Repository) (dref : string) (o : ExtendedCopyOptions)
  : copyE (ocispec.Descriptor * option error)
| ExtendedCopyGraph (ctx : Context) (s d : remote.Repository)
    (root : ocispec.Descriptor) (o : ExtendedCopyGraphOptions)
  : copyE (option error)
| Println (a : list string) : copyE unit.

(** display.ShortDigest and the default bundles of oras-go. *)
Variable ShortDigest : ocispec.Descriptor -> string.
Variable DefaultCopyOptions : CopyOptions.
Variable DefaultExtendedCopyOptions : ExtendedCopyOptions.

(** [m[k]] on a Go map: the zero value when the key is absent. *)
Definition index (m : gmap string string) (k : string) : string :=
  default "" (m !! k).

(** The closure [preCopy] of [runCopy]. *)
Definition preCopy (opts : copyOptions) : Callback := fun ctx desc =>
  match ocispec.Annotations desc !! ocispec.AnnotationTitle with
  | Some name =>
      trigger (display.Print ["Uploading"; ShortDigest desc; name])
  | None =>
      if negb (optionpkg.Verbose (Common_ opts)) then mret None
      else
        let name := ocispec.MediaType desc in
        trigger (display.Print ["Uploading"; ShortDigest desc; name])
  end.

(** The closure [onCopySkipped] of [runCopy]. *)
Definition onCopySkipped (opts : copyOptions) : Callback := fun ctx desc =>
  trigger (display.Print
    ["Exists   "; ShortDigest desc;
     index (ocispec.Annotations desc) ocispec.AnnotationTitle]).

(** The two bundles once both slots are assigned. *)
Definition cpOpts (opts : copyOptions) : CopyOptions :=
  over_graph (set_OnCopySkipped (onCopySkipped opts))
    (over_graph (set_PreCopy (preCopy opts)) DefaultCopyOptions).

Definition extendCpOpts (opts : copyOptions) : ExtendedCopyOptions :=
  over_extended_graph (set_OnCopySkipped (onCopySkipped opts))
    (over_extended_graph (set_PreCopy (preCopy opts)) DefaultExtendedCopyOptions).

(** The end of [runCopy], from the error check that closes each branch of
    the mode selection to the two completion lines. *)
Definition complete (opts : copyOptions) (desc : ocispec.Descriptor)
  (err : option error) : Prog copyE (option error) :=
  match err with
  | Some e => mret (Some e)
  | None =>
      match err with
      | Some e => mret (Some e)
      | None =>
          _ ← trigger (Println ["Copied"; srcRef opts; "=>"; dstRef opts]);
          _ ← trigger (Println ["Digest:"; ocispec.Digest desc]);
          mret None
      end
  end.

Definition runCopy (opts : copyOptions) : Prog copyE (option error) :=
  ctx ← trigger (SetLoggerLevel (Common_ opts));
  (* Prepare source *)
  '(s, err) ← trigger (NewRepository (src opts) (srcRef opts) (Common_ opts));
  match err with
  | Some e => mret (Some e)
  | None =>
  (* Prepare destination *)
  '(d, err) ← trigger (NewRepository (dst opts) (dstRef opts) (Common_ opts));
  match err with
  | Some e => mret (Some e)
  | None =>
  if String.eqb (registry.Reference_ (remote.Reference s)) ""
  then mret (Some (newErrInvalidReference (remote.Reference s)))
  else
    if rescursive opts then
      if String.eqb (registry.Reference_ (remote.Reference d)) "" then
        '(desc, err) ← trigger
          (Resolve ctx s (registry.Reference_ (remote.Reference s)));
        match err with
        | Some e => mret (Some e)
        | None =>
            err ← trigger (ExtendedCopyGraph ctx s d desc
                             (ExtendedCopyGraphOptions_ (extendCpOpts opts)));
            complete opts desc err
        end
      else
        '(desc, err) ← trigger
          (ExtendedCopy ctx s (srcRef opts) d (dstRef opts) (extendCpOpts opts));
        complete opts desc err
    else
      if String.eqb (registry.Reference_ (remote.Reference d)) "" then
        '(desc, err) ← trigger
          (Resolve ctx s (registry.Reference_ (remote.Reference s)));
        match err with
        | Some e => mret (Some e)
        | None =>
            err ← trigger (CopyGraph ctx s d desc
                             (CopyGraphOptions_ (cpOpts opts)));
            complete opts desc err
        end
      else
        '(desc, err) ← trigger
          (Copy ctx s (srcRef opts) d (dstRef opts) (cpOpts opts));
        complete opts desc err
  end
  end.

(** [opts.srcRef = v] and [opts.dstRef = v]. *)
Definition set_srcRef (v : string) (opts : copyOptions) : copyOptions :=
  {| src := src opts; dst := dst opts; Common_ := Common_ opts;
     rescursive := rescursive opts; srcRef := v; dstRef := dstRef opts |}.

Definition set_dstRef (v : string) (opts : copyOptions) : copyOptions :=
  {| src := src opts; dst := dst opts; Common_ := Common_ opts;
     rescursive := rescursive opts; srcRef := srcRef opts; dstRef := v |}.

(** [copyCmd] builds the command around the variable [opts], which the flag
    parser has filled in by the time [RunE] runs. *)
Definition copyCmd (opts : copyOptions) : cobra.Command (Prog copyE (option error)) :=
  {| cobra.Use := "copy <from-ref> <to-ref>";
     cobra.Aliases := ["cp"];
     cobra.Short := "Copy manifests between repositories";
     cobra.Long := "Copy manifests between repositories

Examples - Copy the manifest tagged 'v1' from repository 'localhost:5000/net-monitor' to repository 'localhost:5000/net-monitor-copy' 
  oras cp localhost:5000/net-monitor:v1 localhost:5000/net-monitor-copy:v1
Examples - Copy the manifest tagged 'v1' and referrer artifacts from repository 'localhost:5000/net-monitor' to 'localhost:5000/net-monitor-copy'
  oras cp -r localhost:5000/net-monitor:v1 localhost:5000/net-monitor-copy:v1
";
     cobra.Args := cobra.MinimumNArgs 2;
     cobra.RunE := fun args =>
       a0 ← args !! 0%nat;
       let opts := set_srcRef a0 opts in
       a1 ← args !! 1%nat;
       let opts := set_dstRef a1 opts in
       Some (runCopy opts) |}.

(** *** Reading a trace *)

(** The error a call reported, if any. *)
Definition call_error (c : Call copyE) : option error :=
  match c with
  | Answered e x =>
      match e in copyE T return T -> option error with
      | SetLoggerLevel _ => fun _ => None
      | NewRepository _ _ _ => snd
      | Resolve _ _ _ => snd
      | Copy _ _ _ _ _ _ => snd
      | CopyGraph _ _ _ _ _ => fun err => err
      | ExtendedCopy _ _ _ _ _ _ => snd
      | ExtendedCopyGraph _ _ _ _ _ => fun err => err
      | Println _ => fun _ => None
      end x
  end.

(** The four delegates of the mode selection. *)
Inductive Delegate : Type :=
| ViaCopy | ViaCopyGraph | ViaExtendedCopy | ViaExtendedCopyGraph.

Definition delegate_of (c : Call copyE) : option Delegate :=
  match c with
  | Answered e _ =>
      match e with
      | Copy _ _ _ _ _ _ => Some ViaCopy
      | CopyGraph _ _ _ _ _ => Some ViaCopyGraph
      | ExtendedCopy _ _ _ _ _ _ => Some ViaExtendedCopy
      | ExtendedCopyGraph _ _ _ _ _ => Some ViaExtendedCopyGraph
      | _ => None
      end
  end.

Definition is_delegate (c : Call copyE) : bool :=
  match delegate_of c with Some _ => true | None => false end.

(** A call that may reach a registry: [Resolve] or one of the delegates. *)
Definition is_network (c : Call copyE) : bool :=
  match c with
  | Answered (Resolve _ _ _) _ => true
  | _ => is_delegate c
  end.

(** The reference strings handed to [Copy] or [ExtendedCopy]. *)
Definition reference_args (c : Call copyE) : option (string * string) :=
  match c with
  | Answered e _ =>
      match e with
      | Copy _ _ sref _ dref _ => Some (sref, dref)
      | ExtendedCopy _ _ sref _ dref _ => Some (sref, dref)
      | _ => None
      end
  end.

(** The callback slots a delegate was handed. *)
Definition callbacks_of (c : Call copyE) : option (option Callback * option Callback) :=
  match c with
  | Answered e _ =>
      match e with
      | Copy _ _ _ _ _ o =>
          Some (PreCopy (CopyGraphOptions_ o), OnCopySkipped (CopyGraphOptions_ o))
      | CopyGraph _ _ _ _ o => Some (PreCopy o, OnCopySkipped o)
      | ExtendedCopy _ _ _ _ _ o =>
          let g := ExtCopyGraphOptions_ (ExtendedCopyGraphOptions_ o) in
          Some (PreCopy g, OnCopySkipped g)
      | ExtendedCopyGraph _ _ _ _ o =>
          let g := ExtCopyGraphOptions_ o in
          Some (PreCopy g, OnCopySkipped g)
      | _ => None
      end
  end.

(** The descriptor a call answered with: the subject of the copy. *)
Definition descriptor_of (c : Call copyE) : option ocispec.Descriptor :=
  match c with
  | Answered e x =>
      match e in copyE T return T -> option ocispec.Descriptor with
      | Resolve _ _ _ => fun r => Some (fst r)
      | Copy _ _ _ _ _ _ => fun r => Some (fst r)
      | ExtendedCopy _ _ _ _ _ _ => fun r => Some (fst r)
      | _ => fun _ => None
      end x
  end.

(** The operands of a [fmt.Println] call. *)
Definition println_of (c : Call copyE) : option (list string) :=
  match c with
  | Answered (Println a) _ => Some a
  | _ => None
  end.

Definition errors (t : list (Call copyE)) : list error := omap call_error t.
Definition delegates (t : list (Call copyE)) : list Delegate := omap delegate_of t.
Definition transfers (t : list (Call copyE)) : list (Call copyE) := filter is_delegate t.
Definition network_calls (t : list (Call copyE)) : list (Call copyE) := filter is_network t.
Definition printed (t : list (Call copyE)) : list (list string) := omap println_of t.
Definition subjects (t : list (Call copyE)) : list ocispec.Descriptor := omap descriptor_of t.

(** Both clients were constructed: the logger context is [ctx], the source
    client [s], the destination client [d], and the environment is left in
    state [s3]. *)
Definition constructed {S} (h : Handler copyE S) (s0 : S) (opts : copyOptions)
  (ctx : Context) (s d : remote.Repository) (s3 : S) : Prop :=
  exists s1 s2,
    h _ (SetLoggerLevel (Common_ opts)) s0 = (ctx, s1) /\
    h _ (NewRepository (src opts) (srcRef opts) (Common_ opts)) s1 = ((s, None), s2) /\
    h _ (NewRepository (dst opts) (dstRef opts) (Common_ opts)) s2 = ((d, None), s3).

End Orchestrator.

Arguments Callback Context : clear implicits.
Arguments copyOptions Remote : clear implicits.
Arguments SetLoggerLevel {Context Remote OtherOptions} c.
Arguments NewRepository {Context Remote OtherOptions} r reference c.
Arguments Resolve {Context Remote OtherOptions} ctx repo reference.
Arguments Copy {Context Remote OtherOptions} ctx s sref d dref o.
Arguments CopyGraph {Context Remote OtherOptions} ctx s d root o.
Arguments ExtendedCopy {Context Remote OtherOptions} ctx s sref d dref o.
Arguments ExtendedCopyGraph {Context Remote OtherOptions} ctx s d root o.
Arguments Println {Context Remote OtherOptions} a.
Arguments PreCopy {Context OtherOptions} c.
Arguments OnCopySkipped {Context OtherOptions} c.
Arguments Others {Context OtherOptions} c.
Arguments CopyGraphOptions_ {Context OtherOptions} c.
Arguments ExtCopyGraphOptions_ {Context OtherOptions} e.
Arguments ExtendedCopyGraphOptions_ {Context OtherOptions} e.
Arguments src {Remote} c.
Arguments dst {Remote} c.
Arguments Common_ {Remote} c.
Arguments rescursive {Remote} c.
Arguments srcRef {Remote} c.
Arguments dstRef {Remote} c.
Arguments preCopy {Context Remote} ShortDigest opts ctx desc.
Arguments onCopySkipped {Context Remote} ShortDigest opts ctx desc.
Arguments cpOpts {Context Remote OtherOptions} ShortDigest DefaultCopyOptions opts.
Arguments extendCpOpts {Context Remote OtherOptions} ShortDigest DefaultExtendedCopyOptions opts.
Arguments complete {Context Remote OtherOptions} opts desc err.
Arguments runCopy {Context Remote OtherOptions} ShortDigest DefaultCopyOptions DefaultExtendedCopyOptions opts.
Arguments set_srcRef {Remote} v opts.
Arguments set_dstRef {Remote} v opts.
Arguments copyCmd {Context Remote OtherOptions} ShortDigest DefaultCopyOptions DefaultExtendedCopyOptions opts.
Arguments call_error {Context Remote OtherOptions} c.
Arguments delegate_of {Context Remote OtherOptions} c.
Arguments is_delegate {Context Remote OtherOptions} c.
Arguments is_network {Context Remote OtherOptions} c.
Arguments reference_args {Context Remote OtherOptions} c.
Arguments callbacks_of {Context Remote OtherOptions} c.
Arguments descriptor_of {Context Remote OtherOptions} c.
Arguments println_of {Context Remote OtherOptions} c.
Arguments errors {Context Remote OtherOptions} t.
Arguments delegates {Context Remote OtherOptions} t.
Arguments transfers {Context Remote OtherOptions} t.
Arguments network_calls {Context Remote OtherOptions} t.
Arguments printed {Context Remote OtherOptions} t.
Arguments subjects {Context Remote OtherOptions} t.
Arguments constructed {Context Remote OtherOptions S} h s0 opts ctx s d s3.

(** A call without its answer. *)
Inductive Event {Context Remote OtherOptions : Type} : Type :=
| Called {X : Type} (e : @copyE Context Remote OtherOptions X).

Definition event_of {Context Remote OtherOptions : Type}
  (c : Call (@copyE Context Remote OtherOptions)) : Event :=
  match c with Answered e _ => Called e end.

(** One printed line: [fmt.Println] separates its operands by a space. *)
Definition text (a : list string) : string := String.concat " " a.

(** The clients and the root handed to [CopyGraph] or [ExtendedCopyGraph]. *)
Definition graph_args {Context Remote OtherOptions : Type}
  (c : Call (@copyE Context Remote OtherOptions))
  : option (remote.Repository * remote.Repository * ocispec.Descriptor) :=
  match c with
  | Answered e _ =>
      match e with
      | CopyGraph _ s d root _ => Some (s, d, root)
      | ExtendedCopyGraph _ s d root _ => Some (s, d, root)
      | _ => None
      end
  end.

(** The mode selection as the 2x2 table states it: a function of the
    recursive flag and of whether the destination carries a tag. *)
Definition select (recursive tagged : bool) : Delegate :=
  match recursive, tagged with
  | false, false => ViaCopyGraph
  | false, true => ViaCopy
  | true, false => ViaExtendedCopyGraph
  | true, true => ViaExtendedCopy
  end.

(** What the display sink does with one line: the call and its outcome. *)
Definition report {S} (h : Handler display.displayE S) (s : S) (a : list string)
  : list (Call display.displayE) * option error :=
  let r := fst (h _ (display.Print a) s) in ([Answered (display.Print a) r], r).

(** ** A small world to run the command in

    Two repositories, [repo-a] and [repo-b]; contexts, connection settings
    and the remaining bundle fields carry no information.  The environment
    counts the calls it has answered. *)

Module World.

Definition repo (name tag : string) : remote.Repository :=
  {| remote.Reference :=
      {| registry.Registry := "localhost:5000";
         registry.Repository := name;
         registry.Reference_ := tag |} |}.

Definition zero_desc : ocispec.Descriptor :=
  {| ocispec.MediaType := ""; ocispec.Digest := ""; ocispec.Size := 0;
     ocispec.Annotations := ∅ |}.

(** The manifest behind [repo-a:v1]. *)
Definition D : ocispec.Descriptor :=
  {| ocispec.MediaType := "application/vnd.oci.image.manifest.v1+json";
     ocispec.Digest := "sha256:9d16f5505246424aed7116cb21216704ba8c919997d0f1f37e154c11d509e1d2";
     ocispec.Size := 1024;
     ocispec.Annotations := {[ ocispec.AnnotationTitle := "net-monitor" ]} |}.

(** Another manifest, with an empty title. *)
Definition D' : ocispec.Descriptor :=
  {| ocispec.MediaType := "application/vnd.oci.image.manifest.v1+json";
     ocispec.Digest := "sha256:0f3a1b5c7d9e2f4a6b8c0d1e3f5a7b9c1d2e4f6a8b0c2d4e6f8a0b1c3d5e7f90";
     ocispec.Size := 512;
     ocispec.Annotations := {[ ocispec.AnnotationTitle := "" ]} |}.

(** A layer without annotations. *)
Definition layer : ocispec.Descriptor :=
  {| ocispec.MediaType := "application/vnd.oci.image.layer.v1.tar";
     ocispec.Digest := "sha256:5b0bcabd1ed22e9fb1310cf6c2dec7cdef19f0ad69efa1f392e94a4333501270";
     ocispec.Size := 4096;
     ocispec.Annotations := ∅ |}.

Definition short (d : ocispec.Descriptor) : string :=
  substring 7 12 (ocispec.Digest d).

(** Client construction: the references the world knows how to parse. *)
Definition new_repository (reference : string) : remote.Repository * option error :=
  if String.eqb reference "repo-a:v1" then (repo "repo-a" "v1", None)
  else if String.eqb reference "repo-a" then (repo "repo-a" "", None)
  else if String.eqb reference "repo-b:v1" then (repo "repo-b" "v1", None)
  else if String.eqb reference "repo-b" then (repo "repo-b" "", None)
  else (repo "" "", Some (ErrCollaborator "invalid reference")).

(** What the registry holds and how a transfer ends. *)
Record Behaviour : Type := {
  resolves : ocispec.Descriptor * option error;
  copies : ocispec.Descriptor * option error
}.

Definition handler (b : Behaviour) : Handler (@copyE unit unit unit) nat :=
  fun X e n =>
    match e in copyE _ _ _ T return T * nat with
    | SetLoggerLevel _ => (tt, S n)
    | NewRepository _ reference _ => (new_repository reference, S n)
    | Resolve _ _ _ => (resolves b, S n)
    | Copy _ _ _ _ _ _ => (copies b, S n)
    | CopyGraph _ _ _ _ _ => (snd (copies b), S n)
    | ExtendedCopy _ _ _ _ _ _ => (copies b, S n)
    | ExtendedCopyGraph _ _ _ _ _ => (snd (copies b), S n)
    | Println _ => (tt, S n)
    end.

(** A display sink that always writes, and one that is broken. *)
Definition sink : Handler display.displayE nat :=
  fun X e n => match e in display.displayE T return T * nat with
               | display.Print _ => (None, S n)
               end.

Definition broken_sink : Handler display.displayE nat :=
  fun X e n => match e in display.displayE T return T * nat with
               | display.Print _ => (Some (ErrCollaborator "broken pipe"), S n)
               end.

Definition healthy : Behaviour :=
  {| resolves := (D, None); copies := (D, None) |}.


Definition not_found : Behaviour :=
  {| resolves := (zero_desc, Some (ErrCollaborator "not found"));
     copies := (D, None) |}.

Definition failing_transfer : Behaviour :=
  {| resolves := (D, None);
     copies := (zero_desc, Some (ErrCollaborator "connection reset")) |}.

Definition defaults : CopyOptions unit unit :=
  {| CopyGraphOptions_ := {| PreCopy := None; OnCopySkipped := None; Others := tt |} |}.

Definition extended_defaults : ExtendedCopyOptions unit unit :=
  {| ExtendedCopyGraphOptions_ :=
      {| ExtCopyGraphOptions_ :=
          {| PreCopy := None; OnCopySkipped := None; Others := tt |} |} |}.

Definition options (recursive verbose : bool) (from to : string) : copyOptions unit :=
  {| src := tt; dst := tt; Common_ := {| optionpkg.Verbose := verbose |};
     rescursive := recursive; srcRef := from; dstRef := to |}.

Definition run (b : Behaviour) (opts : copyOptions unit)
  : list (Call (@copyE unit unit unit)) * option error :=
  exec (handler b) (runCopy short defaults extended_defaults opts) 0%nat.

(** The invocations used below. *)
Definition tagged_copy : copyOptions unit :=
  options false false "repo-a:v1" "repo-b:v1".

Definition untagged_copy : copyOptions unit :=
  options false false "repo-a:v1" "repo-b".

Definition untagged_recursive_copy : copyOptions unit :=
  options true false "repo-a:v1" "repo-b".

Definition untagged_source : copyOptions unit :=
  options false false "repo-a" "repo-b:v1".

End World.

(** ** Properties *)

Section Properties.

Variables Context Remote OtherOptions : Type.
Variable ShortDigest : ocispec.Descriptor -> string.
Variable DefaultCopyOptions : CopyOptions Context OtherOptions.
Variable DefaultExtendedCopyOptions : ExtendedCopyOptions Context OtherOptions.

Local Abbreviation preCopy' := (@preCopy Context Remote ShortDigest).
Local Abbreviation onCopySkipped' := (@onCopySkipped Context Remote ShortDigest).
Local Abbreviation cpOpts' := (cpOpts ShortDigest DefaultCopyOptions).
Local Abbreviation extendCpOpts' := (extendCpOpts ShortDigest DefaultExtendedCopyOptions).
Local Abbreviation runCopy' :=
  (runCopy ShortDigest DefaultCopyOptions DefaultExtendedCopyOptions).
Local Abbreviation copyCmd' :=
  (copyCmd ShortDigest DefaultCopyOptions DefaultExtendedCopyOptions).

(** *** The callbacks *)

Lemma exec_trigger_print {S} (h : Handler display.displayE S) (s : S) a :
  exec h (trigger (display.Print a)) s = report h s a.
Proof.
  unfold report, trigger. cbn [exec].
  destruct (h _ (display.Print a) s) as [r s']. reflexivity.
Qed.

(** C4. [preCopy] on a descriptor: with a title annotation it prints a
    progress line labelled with the title; without one it prints nothing and
    returns nil when verbose is off, and prints a progress line labelled
    with the media type when verbose is on. *)
Theorem preCopy_progress :
  forall S (h : Handler display.displayE S) (s : S)
         (opts : copyOptions Remote) (ctx : Context) (desc : ocispec.Descriptor),
    (forall title,
        ocispec.Annotations desc !! ocispec.AnnotationTitle = Some title ->
        exec h (preCopy' opts ctx desc) s
        = report h s ["Uploading"; ShortDigest desc; title]) /\
    (ocispec.Annotations desc !! ocispec.AnnotationTitle = None ->
     optionpkg.Verbose (Common_ opts) = false ->
     exec h (preCopy' opts ctx desc) s = ([], None)) /\
    (ocispec.Annotations desc !! ocispec.AnnotationTitle = None ->
     optionpkg.Verbose (Common_ opts) = true ->
     exec h (preCopy' opts ctx desc) s
     = report h s ["Uploading"; ShortDigest desc; ocispec.MediaType desc]).
Proof.
  intros S h s opts ctx desc. unfold preCopy. repeat split.
  - intros title Htitle. rewrite Htitle. apply exec_trigger_print.
  - intros Habsent Hquiet. rewrite Habsent, Hquiet. reflexivity.
  - intros Habsent Hverbose. rewrite Habsent, Hverbose. apply exec_trigger_print.
Qed.

(** C5. [onCopySkipped] prints an "Exists" notice for every descriptor,
    whatever the verbose setting; the label is the title annotation, and the
    empty string when the descriptor has none. *)
Theorem onCopySkipped_notice :
  forall S (h : Handler display.displayE S) (s : S)
         (opts : copyOptions Remote) (ctx : Context) (desc : ocispec.Descriptor),
    exec h (onCopySkipped' opts ctx desc) s
    = report h s
        ["Exists   "; ShortDigest desc;
         match ocispec.Annotations desc !! ocispec.AnnotationTitle with
         | Some title => title
         | None => ""
         end].
Proof.
  intros S h s opts ctx desc. unfold onCopySkipped, index.
  rewrite exec_trigger_print.
  destruct (ocispec.Annotations desc !! ocispec.AnnotationTitle); reflexivity.
Qed.

(** C9. A title annotation that is present but empty does not trigger the
    fallback: [preCopy] prints a progress line with an empty label, verbose
    or not. *)
Theorem preCopy_empty_title :
  forall S (h : Handler display.displayE S) (s : S)
         (opts : copyOptions Remote) (ctx : Context) (desc : ocispec.Descriptor),
    ocispec.Annotations desc !! ocispec.AnnotationTitle = Some "" ->
    exec h (preCopy' opts ctx desc) s
    = report h s ["Uploading"; ShortDigest desc; ""].
Proof.
  intros S h s opts ctx desc Hempty. unfold preCopy.
  rewrite Hempty. apply exec_trigger_print.
Qed.

(** *** Running [runCopy] against an arbitrary environment *)

(** Name the answer the environment gives to the next call. *)
Tactic Notation "answer" constr(h) "as" simple_intropattern(p) :=
  match goal with
  | |- context [h ?X ?e ?s] => destruct (h X e s) as p eqn:?; cbn
  end.

(** Every way a run can end.  Either a collaborator reported an error, which
    stopped the run there and is the value returned; or the source reference
    had no tag or digest; or the copy went through and the two completion
    lines were printed, the second with the digest of the subject. *)
Lemma runCopy_outcome :
  forall S (h : Handler (@copyE Context Remote OtherOptions) S) (s0 : S)
         (opts : copyOptions Remote),
    let r := exec h (runCopy' opts) s0 in
    (exists e c,
        snd r = Some e /\ errors (fst r) = [e] /\ printed (fst r) = [] /\
        last (fst r) = Some c /\ call_error c = Some e) \/
    (exists ref,
        snd r = Some (newErrInvalidReference ref) /\
        registry.Reference_ ref = "" /\
        errors (fst r) = [] /\ printed (fst r) = [] /\
        network_calls (fst r) = []) \/
    (exists D k,
        snd r = None /\ errors (fst r) = [] /\
        subjects (fst r) = [D] /\ delegates (fst r) = [k] /\
        printed (fst r)
        = [["Copied"; srcRef opts; "=>"; dstRef opts];
           ["Digest:"; ocispec.Digest D]]).
Proof.
  intros S h s0 opts. unfold runCopy, complete. cbn.
  answer h as [ctx s1].
  answer h as [[s [e|]] s2].
  { left. eexists _, _. repeat split; reflexivity. }
  answer h as [[d [e|]] s3].
  { left. eexists _, _. repeat split; reflexivity. }
  destruct (String.eqb (registry.Reference_ (remote.Reference s)) "") eqn:Hsrc; cbn.
  { right. left. exists (remote.Reference s).
    apply String.eqb_eq in Hsrc. repeat split; auto. }
  destruct (rescursive opts),
    (String.eqb (registry.Reference_ (remote.Reference d)) ""); cbn.
  - answer h as [[D [e|]] s4].
    { left. eexists _, _. repeat split; reflexivity. }
    answer h as [[e|] s5].
    { left. eexists _, _. repeat split; reflexivity. }
    answer h as [[] s6]. answer h as [[] s7].
    right. right. eexists _, _. repeat split; reflexivity.
  - answer h as [[D [e|]] s4].
    { left. eexists _, _. repeat split; reflexivity. }
    answer h as [[] s5]. answer h as [[] s6].
    right. right. eexists _, _. repeat split; reflexivity.
  - answer h as [[D [e|]] s4].
    { left. eexists _, _. repeat split; reflexivity. }
    answer h as [[e|] s5].
    { left. eexists _, _. repeat split; reflexivity. }
    answer h as [[] s6]. answer h as [[] s7].
    right. right. eexists _, _. repeat split; reflexivity.
  - answer h as [[D [e|]] s4].
    { left. eexists _, _. repeat split; reflexivity. }
    answer h as [[] s5]. answer h as [[] s6].
    right. right. eexists _, _. repeat split; reflexivity.
Qed.

(** A call that reported an error shows among the errors of the trace. *)
Lemma failing_call_in_errors :
  forall (pre post : list (Call (@copyE Context Remote OtherOptions))) c e,
    call_error c = Some e -> e ∈ errors (pre ++ c :: post)%list.
Proof.
  intros pre post c e Hc. apply list_elem_of_omap. exists c.
  split; [|assumption]. apply elem_of_app. right. left.
Qed.

(** When a trace holds one error and its last call reported it, no call
    follows a failing call. *)
Lemma failing_call_is_last :
  forall (t : list (Call (@copyE Context Remote OtherOptions))) e c0,
    errors t = [e] -> last t = Some c0 -> call_error c0 = Some e ->
    forall pre c post e',
      t = (pre ++ c :: post)%list -> call_error c = Some e' ->
      post = [] /\ e' = e.
Proof.
  intros t e c0 Herrors Hlast Hc0 pre c post e' -> Hc.
  unfold errors in Herrors. rewrite omap_app in Herrors.
  cbn in Herrors. rewrite Hc in Herrors.
  destruct (omap call_error pre) as [|e1 l] eqn:Hpre; cbn in Herrors.
  - injection Herrors as -> Hpost. split; [|reflexivity].
    destruct post as [|c' post]; [reflexivity|].
    assert (Hin : c0 ∈ c' :: post).
    { apply last_Some_elem_of.
      rewrite last_app_cons, last_cons_cons in Hlast. exact Hlast. }
    assert (He : e ∈ omap call_error (c' :: post)).
    { apply list_elem_of_omap. exists c0. split; assumption. }
    rewrite Hpost in He. apply elem_of_nil in He. contradiction.
  - destruct l; discriminate.
Qed.

(** C7. A failure ends the run: the call that reported an error is the last
    one made and its error is returned as it is; when an error is returned
    no completion line has been printed, and the error is the one a
    collaborator reported or the invalid-reference error of the source; a
    completion line is printed only in a run without any error. *)
Theorem runCopy_first_error :
  forall S (h : Handler (@copyE Context Remote OtherOptions) S) (s0 : S)
         (opts : copyOptions Remote),
    let r := exec h (runCopy' opts) s0 in
    (forall pre c post e,
        fst r = (pre ++ c :: post)%list -> call_error c = Some e ->
        post = [] /\ snd r = Some e) /\
    (forall e,
        snd r = Some e ->
        printed (fst r) = [] /\
        (errors (fst r) = [e] \/
         errors (fst r) = [] /\
         exists ref, registry.Reference_ ref = "" /\ e = newErrInvalidReference ref)) /\
    (printed (fst r) <> [] -> snd r = None /\ errors (fst r) = []).
Proof.
  intros S h s0 opts r.
  assert (Hclean : errors (fst r) = [] ->
            forall pre c post e,
              fst r = (pre ++ c :: post)%list -> call_error c = Some e -> False).
  { intros He pre c post e Ht Hc.
    pose proof (failing_call_in_errors pre post c e Hc) as Hin.
    rewrite <- Ht, He in Hin. apply elem_of_nil in Hin. exact Hin. }
  destruct (runCopy_outcome S h s0 opts)
    as [(e & c & Hr & He & Hp & Hl & Hc)
       |[(ref & Hr & Href & He & Hp & _)
        |(D & k & Hr & He & _ & _ & Hp)]];
    fold r in Hr, He, Hp; try fold r in Hl.
  - split; [|split].
    + intros pre c' post e' Ht Hc'.
      destruct (failing_call_is_last _ _ _ He Hl Hc _ _ _ _ Ht Hc') as [-> ->].
      split; [reflexivity | assumption].
    + intros e' He'. rewrite Hr in He'. injection He' as <-.
      split; [assumption | left; assumption].
    + intros Hprinted. congruence.
  - split; [|split].
    + intros pre c post e Ht Hc. exfalso. eapply Hclean; eauto.
    + intros e He'. rewrite Hr in He'. injection He' as <-.
      split; [assumption|]. right. split; [assumption|].
      exists ref. split; [assumption | reflexivity].
    + intros Hprinted. congruence.
  - split; [|split].
    + intros pre c post e Ht Hc. exfalso. eapply Hclean; eauto.
    + intros e He'. congruence.
    + intros _. split; assumption.
Qed.


(** C6. Both bundles carry the same two closures: the [PreCopy] slots of
    the plain and of the extended bundle are equal, so are the
    [OnCopySkipped] slots, and whichever delegate a run calls is handed
    [preCopy] and [onCopySkipped]. *)
Theorem callbacks_shared :
  forall opts : copyOptions Remote,
    let plain := CopyGraphOptions_ (cpOpts' opts) in
    let extended :=
      ExtCopyGraphOptions_ (ExtendedCopyGraphOptions_ (extendCpOpts' opts)) in
    PreCopy plain = Some (preCopy' opts) /\
    PreCopy extended = PreCopy plain /\
    OnCopySkipped plain = Some (onCopySkipped' opts) /\
    OnCopySkipped extended = OnCopySkipped plain /\
    forall S (h : Handler (@copyE Context Remote OtherOptions) S) (s0 : S) c,
      c ∈ transfers (fst (exec h (runCopy' opts) s0)) ->
      callbacks_of c = Some (Some (preCopy' opts), Some (onCopySkipped' opts)).
Proof.
  intros opts plain extended. repeat split.
  intros S h s0 c. unfold runCopy, complete. cbn.
  pose (none_made := fun (Hc : c ∈ @nil (Call (@copyE Context Remote OtherOptions))) =>
                       False_ind (callbacks_of c
                                  = Some (Some (preCopy' opts), Some (onCopySkipped' opts)))
                         (proj1 (elem_of_nil c) Hc)).
  answer h as [ctx s1].
  answer h as [[s [e|]] s2]; [exact none_made|].
  answer h as [[d [e|]] s3]; [exact none_made|].
  destruct (String.eqb (registry.Reference_ (remote.Reference s)) ""); cbn;
    [exact none_made|].
  destruct (rescursive opts),
    (String.eqb (registry.Reference_ (remote.Reference d)) ""); cbn.
  - answer h as [[D [e|]] s4]; [exact none_made|].
    answer h as [[e|] s5]; [|answer h as [[] s6]; answer h as [[] s7]].
    all: intros Hc; apply list_elem_of_singleton in Hc; subst c; reflexivity.
  - answer h as [[D [e|]] s4]; [|answer h as [[] s5]; answer h as [[] s6]].
    all: intros Hc; apply list_elem_of_singleton in Hc; subst c; reflexivity.
  - answer h as [[D [e|]] s4]; [exact none_made|].
    answer h as [[e|] s5]; [|answer h as [[] s6]; answer h as [[] s7]].
    all: intros Hc; apply list_elem_of_singleton in Hc; subst c; reflexivity.
  - answer h as [[D [e|]] s4]; [|answer h as [[] s5]; answer h as [[] s6]].
    all: intros Hc; apply list_elem_of_singleton in Hc; subst c; reflexivity.
Qed.

(** *** Runs in which both clients are constructed *)

(** C2. Once both clients are constructed, a source reference without tag
    or digest ends the run at once: the three setup calls are all that was
    made, none of [Resolve], [Copy], [CopyGraph], [ExtendedCopy] and
    [ExtendedCopyGraph] among them, and the invalid-reference error of the
    source reference is returned. *)
Theorem empty_source_reference_rejected :
  forall S (h : Handler (@copyE Context Remote OtherOptions) S) (s0 s3 : S)
         (opts : copyOptions Remote) (ctx : Context) (s d : remote.Repository),
    constructed h s0 opts ctx s d s3 ->
    registry.Reference_ (remote.Reference s) = "" ->
    exec h (runCopy' opts) s0
    = ([Answered (SetLoggerLevel (Common_ opts)) ctx;
        Answered (NewRepository (src opts) (srcRef opts) (Common_ opts)) (s, None);
        Answered (NewRepository (dst opts) (dstRef opts) (Common_ opts)) (d, None)],
       Some (newErrInvalidReference (remote.Reference s))) /\
    network_calls (fst (exec h (runCopy' opts) s0)) = [].
Proof.
  intros S h s0 s3 opts ctx s d (s1 & s2 & H1 & H2 & H3) Hempty.
  unfold runCopy. cbn. rewrite H1. cbn. rewrite H2. cbn. rewrite H3. cbn.
  rewrite Hempty. cbn. split; reflexivity.
Qed.

(** C1 (amended). With both clients constructed, a source reference that is
    not empty and, where the destination carries no tag, a source that
    resolves, exactly one delegate is called, the one the table selects from
    the recursive flag and the presence of a destination tag: [Resolve] then
    [CopyGraph], [Copy], [Resolve] then [ExtendedCopyGraph], or
    [ExtendedCopy], with the arguments given here. *)
Theorem delegate_selection :
  forall S (h : Handler (@copyE Context Remote OtherOptions) S) (s0 s3 : S)
         (opts : copyOptions Remote) (ctx : Context) (s d : remote.Repository)
         (desc : ocispec.Descriptor),
    constructed h s0 opts ctx s d s3 ->
    registry.Reference_ (remote.Reference s) <> "" ->
    (registry.Reference_ (remote.Reference d) = "" ->
     exists s4,
       h _ (Resolve ctx s (registry.Reference_ (remote.Reference s))) s3
       = ((desc, None), s4)) ->
    let t := fst (exec h (runCopy' opts) s0) in
    let tagged := negb (String.eqb (registry.Reference_ (remote.Reference d)) "") in
    delegates t = [select (rescursive opts) tagged] /\
    List.map event_of (network_calls t)
    = match rescursive opts, tagged with
      | false, false =>
          [Called (Resolve ctx s (registry.Reference_ (remote.Reference s)));
           Called (CopyGraph ctx s d desc (CopyGraphOptions_ (cpOpts' opts)))]
      | false, true =>
          [Called (Copy ctx s (srcRef opts) d (dstRef opts) (cpOpts' opts))]
      | true, false =>
          [Called (Resolve ctx s (registry.Reference_ (remote.Reference s)));
           Called (ExtendedCopyGraph ctx s d desc
                     (ExtendedCopyGraphOptions_ (extendCpOpts' opts)))]
      | true, true =>
          [Called (ExtendedCopy ctx s (srcRef opts) d (dstRef opts)
                     (extendCpOpts' opts))]
      end.
Proof.
  intros S h s0 s3 opts ctx s d desc (s1 & s2 & H1 & H2 & H3) Hsrc Hresolve.
  unfold runCopy, complete. cbn. rewrite H1. cbn. rewrite H2. cbn. rewrite H3. cbn.
  apply String.eqb_neq in Hsrc. rewrite Hsrc. cbn.
  destruct (rescursive opts),
    (String.eqb (registry.Reference_ (remote.Reference d)) "") eqn:Hdst; cbn.
  - apply String.eqb_eq in Hdst. destruct (Hresolve Hdst) as [s4 H4].
    rewrite H4. cbn.
    answer h as [[e|] s5]; [|answer h as [[] s6]; answer h as [[] s7]];
      split; reflexivity.
  - answer h as [[D [e|]] s4]; [|answer h as [[] s5]; answer h as [[] s6]];
      split; reflexivity.
  - apply String.eqb_eq in Hdst. destruct (Hresolve Hdst) as [s4 H4].
    rewrite H4. cbn.
    answer h as [[e|] s5]; [|answer h as [[] s6]; answer h as [[] s7]];
      split; reflexivity.
  - answer h as [[D [e|]] s4]; [|answer h as [[] s5]; answer h as [[] s6]];
      split; reflexivity.
Qed.

(** C3 (amended). Scenario 1: [repo-a:v1] to [repo-b:v1], not recursive,
    both handles carrying the tag [v1].  [Copy] is called with the two
    handles and with the reference strings as they were given,
    [repo-a:v1] and [repo-b:v1]; when it answers with descriptor [D] and no
    error, nil is returned and the two completion lines are
    [Copied repo-a:v1 => repo-b:v1] and [Digest: ] followed by the digest
    of [D]. *)
Theorem scenario_tagged_copy :
  forall S (h : Handler (@copyE Context Remote OtherOptions) S) (s0 s3 s4 : S)
         (opts : copyOptions Remote) (ctx : Context) (s d : remote.Repository)
         (D : ocispec.Descriptor),
    rescursive opts = false ->
    srcRef opts = "repo-a:v1" ->
    dstRef opts = "repo-b:v1" ->
    constructed h s0 opts ctx s d s3 ->
    registry.Reference_ (remote.Reference s) = "v1" ->
    registry.Reference_ (remote.Reference d) = "v1" ->
    h _ (Copy ctx s "repo-a:v1" d "repo-b:v1" (cpOpts' opts)) s3 = ((D, None), s4) ->
    let r := exec h (runCopy' opts) s0 in
    transfers (fst r)
    = [Answered (Copy ctx s "repo-a:v1" d "repo-b:v1" (cpOpts' opts)) (D, None)] /\
    snd r = None /\
    List.map text (printed (fst r))
    = ["Copied repo-a:v1 => repo-b:v1"; "Digest: " ++ ocispec.Digest D].
Proof.
  intros S h s0 s3 s4 opts ctx s d D Hplain Hfrom Hto
    (s1 & s2 & H1 & H2 & H3) Hsrc Hdst H4.
  unfold runCopy, complete. cbn. rewrite H1. cbn. rewrite H2. cbn. rewrite H3. cbn.
  rewrite Hsrc, Hdst, Hplain, Hfrom, Hto. cbn. rewrite H4. cbn.
  answer h as [[] s5]. answer h as [[] s6].
  repeat split; reflexivity.
Qed.

(** *** The command line *)

(** C10. Two positional arguments or more are accepted; the options
    [runCopy] is entered with have the first argument as source reference
    and the second as destination reference, every other field being what
    the flags left; what follows the second argument plays no part: the
    command runs as it does on the first two arguments alone. *)
Theorem copyCmd_positional_arguments :
  forall (opts : copyOptions Remote) (args : list string),
    2 <= List.length args ->
    exists a0 a1,
      args !! 0%nat = Some a0 /\ args !! 1%nat = Some a1 /\
      cobra.Args (copyCmd' opts) args = None /\
      cobra.execute (copyCmd' opts) args
      = Some (runCopy' (set_dstRef a1 (set_srcRef a0 opts))) /\
      cobra.execute (copyCmd' opts) args = cobra.execute (copyCmd' opts) [a0; a1] /\
      cobra.execute (copyCmd' opts) args
      = Some (runCopy'
                {| src := src opts; dst := dst opts; Common_ := Common_ opts;
                   rescursive := rescursive opts;
                   srcRef := a0; dstRef := a1 |}) /\
      srcRef (set_dstRef a1 (set_srcRef a0 opts)) = a0 /\
      dstRef (set_dstRef a1 (set_srcRef a0 opts)) = a1.
Proof.
  intros opts args Hlen.
  destruct args as [|a0 [|a1 rest]]; cbn in Hlen; try lia.
  exists a0, a1. repeat split; reflexivity.
Qed.

(** *** Further properties of the command line and of a run *)

(** One by one through the calls of an explicit trace. *)
Ltac each_call Hc :=
  repeat (apply elem_of_cons in Hc as [-> | Hc]);
  try (apply elem_of_nil in Hc; contradiction).

(** X1. Fewer than two positional arguments: the command is rejected with
    cobra's error and [runCopy] is not entered, so no collaborator is called
    whatever the environment; the check is what keeps [RunE] from indexing
    its arguments out of range. *)
Theorem copyCmd_too_few_arguments :
  forall (opts : copyOptions Remote) (args : list string),
    List.length args < 2 ->
    cobra.execute (copyCmd' opts) args
    = Some (Ret (Some (ErrTooFewArgs 2 (List.length args)))) /\
    cobra.RunE (copyCmd' opts) args = None /\
    forall S (h : Handler (@copyE Context Remote OtherOptions) S) (s0 : S) p,
      cobra.execute (copyCmd' opts) args = Some p ->
      exec h p s0 = ([], Some (ErrTooFewArgs 2 (List.length args))).
Proof.
  intros opts args Hlen.
  destruct args as [|a0 [|a1 rest]]; cbn in Hlen; try lia.
  - repeat split; try reflexivity.
    intros S h s0 p Hp. cbn in Hp. injection Hp as <-. reflexivity.
  - repeat split; try reflexivity.
    intros S h s0 p Hp. cbn in Hp. injection Hp as <-. reflexivity.
Qed.

(** X2. A source client that cannot be constructed ends the run: its error
    is returned and the destination client is never constructed. *)
Theorem source_client_failure :
  forall S (h : Handler (@copyE Context Remote OtherOptions) S) (s0 s1 s2 : S)
         (opts : copyOptions Remote) (ctx : Context) (s : remote.Repository)
         (e : error),
    h _ (SetLoggerLevel (Common_ opts)) s0 = (ctx, s1) ->
    h _ (NewRepository (src opts) (srcRef opts) (Common_ opts)) s1
    = ((s, Some e), s2) ->
    exec h (runCopy' opts) s0
    = ([Answered (SetLoggerLevel (Common_ opts)) ctx;
        Answered (NewRepository (src opts) (srcRef opts) (Common_ opts)) (s, Some e)],
       Some e).
Proof.
  intros S h s0 s1 s2 opts ctx s e H1 H2.
  unfold runCopy. cbn. rewrite H1. cbn. rewrite H2. reflexivity.
Qed.

(** X3. A destination client that cannot be constructed ends the run with
    its error, before the source reference is looked at: this holds for an
    empty source reference as for any other. *)
Theorem destination_client_failure :
  forall S (h : Handler (@copyE Context Remote OtherOptions) S) (s0 s1 s2 s3 : S)
         (opts : copyOptions Remote) (ctx : Context) (s d : remote.Repository)
         (e : error),
    h _ (SetLoggerLevel (Common_ opts)) s0 = (ctx, s1) ->
    h _ (NewRepository (src opts) (srcRef opts) (Common_ opts)) s1
    = ((s, None), s2) ->
    h _ (NewRepository (dst opts) (dstRef opts) (Common_ opts)) s2
    = ((d, Some e), s3) ->
    exec h (runCopy' opts) s0
    = ([Answered (SetLoggerLevel (Common_ opts)) ctx;
        Answered (NewRepository (src opts) (srcRef opts) (Common_ opts)) (s, None);
        Answered (NewRepository (dst opts) (dstRef opts) (Common_ opts)) (d, Some e)],
       Some e).
Proof.
  intros S h s0 s1 s2 s3 opts ctx s d e H1 H2 H3.
  unfold runCopy. cbn. rewrite H1. cbn. rewrite H2. cbn. rewrite H3. reflexivity.
Qed.

(** X4. Without a destination tag, a source that does not resolve ends the
    run, recursive or not: [Resolve] is the last call, its error is
    returned, no delegate is called and nothing is printed. *)
Theorem unresolved_source_stops :
  forall S (h : Handler (@copyE Context Remote OtherOptions) S) (s0 s3 s4 : S)
         (opts : copyOptions Remote) (ctx : Context) (s d : remote.Repository)
         (desc : ocispec.Descriptor) (e : error),
    constructed h s0 opts ctx s d s3 ->
    registry.Reference_ (remote.Reference s) <> "" ->
    registry.Reference_ (remote.Reference d) = "" ->
    h _ (Resolve ctx s (registry.Reference_ (remote.Reference s))) s3
    = ((desc, Some e), s4) ->
    exec h (runCopy' opts) s0
    = ([Answered (SetLoggerLevel (Common_ opts)) ctx;
        Answered (NewRepository (src opts) (srcRef opts) (Common_ opts)) (s, None);
        Answered (NewRepository (dst opts) (dstRef opts) (Common_ opts)) (d, None);
        Answered (Resolve ctx s (registry.Reference_ (remote.Reference s)))
          (desc, Some e)],
       Some e).
Proof.
  intros S h s0 s3 s4 opts ctx s d desc e (s1 & s2 & H1 & H2 & H3) Hsrc Hdst H4.
  unfold runCopy. cbn. rewrite H1. cbn. rewrite H2. cbn. rewrite H3. cbn.
  apply String.eqb_neq in Hsrc. rewrite Hsrc, Hdst. cbn.
  destruct (rescursive opts); cbn; rewrite H4; reflexivity.
Qed.

(** X5. No retry and no second attempt: whatever the environment answers,
    [runCopy] itself calls at most one of the four delegates and makes at
    most two calls that reach a registry, one [Resolve] and one delegate. *)
Theorem runCopy_call_bounds :
  forall S (h : Handler (@copyE Context Remote OtherOptions) S) (s0 : S)
         (opts : copyOptions Remote),
    let t := fst (exec h (runCopy' opts) s0) in
    List.length (delegates t) <= 1 /\
    List.length (network_calls t) <= 2 /\
    List.length (filter (fun c => is_network c && negb (is_delegate c)) t) <= 1.
Proof.
  intros S h s0 opts. unfold runCopy, complete. cbn.
  answer h as [ctx s1].
  answer h as [[s [e|]] s2]; [repeat split; vm_compute; lia|].
  answer h as [[d [e|]] s3]; [repeat split; vm_compute; lia|].
  destruct (String.eqb (registry.Reference_ (remote.Reference s)) ""); cbn;
    [repeat split; vm_compute; lia|].
  destruct (rescursive opts),
    (String.eqb (registry.Reference_ (remote.Reference d)) ""); cbn.
  - answer h as [[D [e|]] s4]; [repeat split; vm_compute; lia|].
    answer h as [[e|] s5]; [|answer h as [[] s6]; answer h as [[] s7]].
    all: repeat split; vm_compute; lia.
  - answer h as [[D [e|]] s4]; [|answer h as [[] s5]; answer h as [[] s6]].
    all: repeat split; vm_compute; lia.
  - answer h as [[D [e|]] s4]; [repeat split; vm_compute; lia|].
    answer h as [[e|] s5]; [|answer h as [[] s6]; answer h as [[] s7]].
    all: repeat split; vm_compute; lia.
  - answer h as [[D [e|]] s4]; [|answer h as [[] s5]; answer h as [[] s6]].
    all: repeat split; vm_compute; lia.
Qed.

(** X6. Whenever [Copy] or [ExtendedCopy] is called, in any run, it is
    handed the two reference strings of the options as they are, the
    destination client carries a tag, and the call is the only one of the
    run that reaches a registry: the orchestrator resolves nothing itself. *)
Theorem tagged_transfer_arguments :
  forall S (h : Handler (@copyE Context Remote OtherOptions) S) (s0 : S)
         (opts : copyOptions Remote) (c : Call (@copyE Context Remote OtherOptions))
         (p : string * string),
    c ∈ fst (exec h (runCopy' opts) s0) ->
    reference_args c = Some p ->
    p = (srcRef opts, dstRef opts) /\
    network_calls (fst (exec h (runCopy' opts) s0)) = [c].
Proof.
  intros S h s0 opts c p. unfold runCopy, complete. cbn.
  answer h as [ctx s1].
  answer h as [[s [e|]] s2].
  { intros Hc Hp. each_call Hc; discriminate Hp. }
  answer h as [[d [e|]] s3].
  { intros Hc Hp. each_call Hc; discriminate Hp. }
  destruct (String.eqb (registry.Reference_ (remote.Reference s)) ""); cbn.
  { intros Hc Hp. each_call Hc; discriminate Hp. }
  destruct (rescursive opts),
    (String.eqb (registry.Reference_ (remote.Reference d)) ""); cbn.
  - answer h as [[D [e|]] s4].
    { intros Hc Hp. each_call Hc; discriminate Hp. }
    answer h as [[e|] s5]; [|answer h as [[] s6]; answer h as [[] s7]].
    all: intros Hc Hp; each_call Hc; discriminate Hp.
  - answer h as [[D [e|]] s4]; [|answer h as [[] s5]; answer h as [[] s6]].
    all: intros Hc Hp; each_call Hc; try discriminate Hp.
    all: cbn in Hp; injection Hp as <-; split; reflexivity.
  - answer h as [[D [e|]] s4].
    { intros Hc Hp. each_call Hc; discriminate Hp. }
    answer h as [[e|] s5]; [|answer h as [[] s6]; answer h as [[] s7]].
    all: intros Hc Hp; each_call Hc; discriminate Hp.
  - answer h as [[D [e|]] s4]; [|answer h as [[] s5]; answer h as [[] s6]].
    all: intros Hc Hp; each_call Hc; try discriminate Hp.
    all: cbn in Hp; injection Hp as <-; split; reflexivity.
Qed.

(** X7. Whenever [CopyGraph] or [ExtendedCopyGraph] is called, in any run,
    the destination client carries no tag and the root handed over is the
    descriptor [Resolve] answered, without error, when asked on the source
    client for that client's own tag or digest. *)
Theorem graph_transfer_root :
  forall S (h : Handler (@copyE Context Remote OtherOptions) S) (s0 : S)
         (opts : copyOptions Remote) (c : Call (@copyE Context Remote OtherOptions))
         (s d : remote.Repository) (root : ocispec.Descriptor),
    c ∈ fst (exec h (runCopy' opts) s0) ->
    graph_args c = Some (s, d, root) ->
    registry.Reference_ (remote.Reference d) = "" /\
    exists ctx,
      Answered (Resolve ctx s (registry.Reference_ (remote.Reference s)))
        (root, None)
      ∈ fst (exec h (runCopy' opts) s0).
Proof.
  intros S h s0 opts c s d root. unfold runCopy, complete. cbn.
  answer h as [ctx s1].
  answer h as [[s' [e|]] s2].
  { intros Hc Hg. each_call Hc; discriminate Hg. }
  answer h as [[d' [e|]] s3].
  { intros Hc Hg. each_call Hc; discriminate Hg. }
  destruct (String.eqb (registry.Reference_ (remote.Reference s')) ""); cbn.
  { intros Hc Hg. each_call Hc; discriminate Hg. }
  destruct (rescursive opts),
    (String.eqb (registry.Reference_ (remote.Reference d')) "") eqn:Hdst; cbn.
  - apply String.eqb_eq in Hdst.
    answer h as [[D [e|]] s4].
    { intros Hc Hg. each_call Hc; discriminate Hg. }
    answer h as [[e|] s5]; [|answer h as [[] s6]; answer h as [[] s7]].
    all: intros Hc Hg; each_call Hc; try discriminate Hg.
    all: cbn in Hg; injection Hg as <- <- <-; split; [exact Hdst|].
    all: exists ctx; apply list_elem_of_In; cbn; auto 10.
  - answer h as [[D [e|]] s4]; [|answer h as [[] s5]; answer h as [[] s6]].
    all: intros Hc Hg; each_call Hc; discriminate Hg.
  - apply String.eqb_eq in Hdst.
    answer h as [[D [e|]] s4].
    { intros Hc Hg. each_call Hc; discriminate Hg. }
    answer h as [[e|] s5]; [|answer h as [[] s6]; answer h as [[] s7]].
    all: intros Hc Hg; each_call Hc; try discriminate Hg.
    all: cbn in Hg; injection Hg as <- <- <-; split; [exact Hdst|].
    all: exists ctx; apply list_elem_of_In; cbn; auto 10.
  - answer h as [[D [e|]] s4]; [|answer h as [[] s5]; answer h as [[] s6]].
    all: intros Hc Hg; each_call Hc; discriminate Hg.
Qed.

(** X8. [preCopy] stays silent exactly when the descriptor has no title
    annotation and verbose is off; in every other case it makes one [Print]
    call and returns what the sink answered. *)
Theorem preCopy_silent_iff :
  forall S (h : Handler display.displayE S) (s : S)
         (opts : copyOptions Remote) (ctx : Context) (desc : ocispec.Descriptor),
    (fst (exec h (preCopy' opts ctx desc) s) = [] <->
     ocispec.Annotations desc !! ocispec.AnnotationTitle = None /\
     optionpkg.Verbose (Common_ opts) = false) /\
    (fst (exec h (preCopy' opts ctx desc) s) <> [] ->
     exists a r,
       exec h (preCopy' opts ctx desc) s = ([Answered (display.Print a) r], r)).
Proof.
  intros S h s opts ctx desc. unfold preCopy.
  destruct (ocispec.Annotations desc !! ocispec.AnnotationTitle) as [title|];
    [|destruct (optionpkg.Verbose (Common_ opts)); cbn [negb]].
  - rewrite exec_trigger_print. unfold report. cbn. split.
    + split; [discriminate | intros [Habsent _]; discriminate].
    + intros _. eexists _, _. reflexivity.
  - rewrite exec_trigger_print. unfold report. cbn. split.
    + split; [discriminate | intros [_ Hquiet]; discriminate].
    + intros _. eexists _, _. reflexivity.
  - cbn. split.
    + split; [intros _; split; reflexivity | reflexivity].
    + intros Hne. contradiction.
Qed.

End Properties.

(** ** The properties at work in the small world *)

Lemma preCopy_progress_witness :
  exec World.sink (preCopy World.short World.tagged_copy tt World.D) 0%nat
  = ([Answered (display.Print ["Uploading"; "9d16f5505246"; "net-monitor"]) None],
     None) /\
  exec World.sink (preCopy World.short World.tagged_copy tt World.layer) 0%nat
  = ([], None) /\
  exec World.sink
    (preCopy World.short (World.options false true "repo-a:v1" "repo-b:v1")
       tt World.layer) 0%nat
  = ([Answered
        (display.Print
           ["Uploading"; "5b0bcabd1ed2"; "application/vnd.oci.image.layer.v1.tar"])
        None],
     None).
Proof.
  split; [|split].
  - apply (proj1 (preCopy_progress unit unit World.short nat World.sink 0%nat
                    World.tagged_copy tt World.D) "net-monitor").
    reflexivity.
  - apply (proj1 (proj2 (preCopy_progress unit unit World.short nat World.sink 0%nat
                           World.tagged_copy tt World.layer)));
      reflexivity.
  - apply (proj2 (proj2 (preCopy_progress unit unit World.short nat World.sink 0%nat
                           (World.options false true "repo-a:v1" "repo-b:v1")
                           tt World.layer)));
      reflexivity.
Defined.

Lemma preCopy_empty_title_witness :
  ocispec.Annotations World.D' !! ocispec.AnnotationTitle = Some "" /\
  exec World.sink (preCopy World.short World.tagged_copy tt World.D') 0%nat
  = ([Answered (display.Print ["Uploading"; "0f3a1b5c7d9e"; ""]) None], None) /\
  exec World.sink
    (preCopy World.short (World.options false true "repo-a:v1" "repo-b:v1")
       tt World.D') 0%nat
  = ([Answered (display.Print ["Uploading"; "0f3a1b5c7d9e"; ""]) None], None).
Proof.
  split; [reflexivity | split].
  - apply (preCopy_empty_title unit unit World.short nat World.sink 0%nat
             World.tagged_copy tt World.D').
    reflexivity.
  - apply (preCopy_empty_title unit unit World.short nat World.sink 0%nat
             (World.options false true "repo-a:v1" "repo-b:v1") tt World.D').
    reflexivity.
Defined.

Lemma callbacks_shared_witness :
  exists c,
    c ∈ transfers (fst (World.run World.healthy World.tagged_copy)) /\
    callbacks_of c
    = Some (Some (preCopy World.short World.tagged_copy),
            Some (onCopySkipped World.short World.tagged_copy)).
Proof.
  assert (Hin :
    Answered
      (Copy tt (World.repo "repo-a" "v1") "repo-a:v1"
         (World.repo "repo-b" "v1") "repo-b:v1"
         (cpOpts World.short World.defaults World.tagged_copy))
      (World.D, None)
    ∈ transfers (fst (World.run World.healthy World.tagged_copy))).
  { left. }
  eexists. split; [exact Hin|].
  apply (proj2 (proj2 (proj2 (proj2
           (callbacks_shared unit unit unit World.short
              World.defaults World.extended_defaults World.tagged_copy))))
           nat (World.handler World.healthy) 0%nat).
  exact Hin.
Defined.

Lemma runCopy_first_error_witness :
  snd (World.run World.failing_transfer World.tagged_copy)
  = Some (ErrCollaborator "connection reset") /\
  printed (fst (World.run World.failing_transfer World.tagged_copy)) = [].
Proof.
  split; [reflexivity|].
  apply (proj1 (proj2 (runCopy_first_error unit unit unit World.short
                         World.defaults World.extended_defaults nat
                         (World.handler World.failing_transfer) 0%nat
                         World.tagged_copy))
           (ErrCollaborator "connection reset")).
  reflexivity.
Defined.


Lemma empty_source_reference_rejected_witness :
  constructed (World.handler World.healthy) 0%nat World.untagged_source
    tt (World.repo "repo-a" "") (World.repo "repo-b" "v1") 3%nat /\
  snd (World.run World.healthy World.untagged_source)
  = Some (ErrInvalidReference (remote.Reference (World.repo "repo-a" ""))) /\
  network_calls (fst (World.run World.healthy World.untagged_source)) = [].
Proof.
  assert (Hc : constructed (World.handler World.healthy) 0%nat World.untagged_source
                 tt (World.repo "repo-a" "") (World.repo "repo-b" "v1") 3%nat).
  { exists 1%nat, 2%nat. repeat split; reflexivity. }
  split; [exact Hc|].
  destruct (empty_source_reference_rejected unit unit unit World.short
              World.defaults World.extended_defaults nat
              (World.handler World.healthy) 0%nat 3%nat World.untagged_source
              tt (World.repo "repo-a" "") (World.repo "repo-b" "v1") Hc eq_refl)
    as [Hrun Hnet].
  split; [|exact Hnet].
  exact (f_equal snd Hrun).
Defined.

Lemma delegate_selection_witness :
  constructed (World.handler World.healthy) 0%nat World.untagged_recursive_copy
    tt (World.repo "repo-a" "v1") (World.repo "repo-b" "") 3%nat /\
  delegates (fst (World.run World.healthy World.untagged_recursive_copy))
  = [ViaExtendedCopyGraph] /\
  delegates (fst (World.run World.healthy World.tagged_copy)) = [ViaCopy].
Proof.
  assert (Hc : constructed (World.handler World.healthy) 0%nat
                 World.untagged_recursive_copy
                 tt (World.repo "repo-a" "v1") (World.repo "repo-b" "") 3%nat).
  { exists 1%nat, 2%nat. repeat split; reflexivity. }
  assert (Hc' : constructed (World.handler World.healthy) 0%nat World.tagged_copy
                  tt (World.repo "repo-a" "v1") (World.repo "repo-b" "v1") 3%nat).
  { exists 1%nat, 2%nat. repeat split; reflexivity. }
  split; [exact Hc | split].
  - apply (delegate_selection unit unit unit World.short
             World.defaults World.extended_defaults nat
             (World.handler World.healthy) 0%nat 3%nat
             World.untagged_recursive_copy
             tt (World.repo "repo-a" "v1") (World.repo "repo-b" "") World.D Hc).
    + discriminate.
    + intros _. exists 4%nat. reflexivity.
  - apply (delegate_selection unit unit unit World.short
             World.defaults World.extended_defaults nat
             (World.handler World.healthy) 0%nat 3%nat World.tagged_copy
             tt (World.repo "repo-a" "v1") (World.repo "repo-b" "v1") World.D Hc').
    + discriminate.
    + discriminate.
Defined.

Lemma scenario_tagged_copy_witness :
  constructed (World.handler World.healthy) 0%nat World.tagged_copy
    tt (World.repo "repo-a" "v1") (World.repo "repo-b" "v1") 3%nat /\
  snd (World.run World.healthy World.tagged_copy) = None /\
  List.map text (printed (fst (World.run World.healthy World.tagged_copy)))
  = ["Copied repo-a:v1 => repo-b:v1";
     "Digest: sha256:9d16f5505246424aed7116cb21216704ba8c919997d0f1f37e154c11d509e1d2"].
Proof.
  assert (Hc : constructed (World.handler World.healthy) 0%nat World.tagged_copy
                 tt (World.repo "repo-a" "v1") (World.repo "repo-b" "v1") 3%nat).
  { exists 1%nat, 2%nat. repeat split; reflexivity. }
  split; [exact Hc|].
  apply (scenario_tagged_copy unit unit unit World.short
           World.defaults World.extended_defaults nat
           (World.handler World.healthy) 0%nat 3%nat 4%nat World.tagged_copy
           tt (World.repo "repo-a" "v1") (World.repo "repo-b" "v1") World.D
           eq_refl eq_refl eq_refl Hc eq_refl eq_refl eq_refl).
Defined.

Lemma copyCmd_positional_arguments_witness :
  cobra.execute
    (copyCmd World.short World.defaults World.extended_defaults
       (World.options false false "" ""))
    ["repo-a:v1"; "repo-b:v1"; "repo-c:v1"]
  = cobra.execute
      (copyCmd World.short World.defaults World.extended_defaults
         (World.options false false "" ""))
      ["repo-a:v1"; "repo-b:v1"].
Proof.
  destruct (copyCmd_positional_arguments unit unit unit World.short
              World.defaults World.extended_defaults
              (World.options false false "" "")
              ["repo-a:v1"; "repo-b:v1"; "repo-c:v1"])
    as (a0 & a1 & H0 & H1 & _ & _ & Hsame & _).
  - cbn. lia.
  - injection H0 as <-. injection H1 as <-. exact Hsame.
Defined.

(** C1, as stated, at a source that does not resolve: both clients are
    constructed, the source reference is [v1], the destination has no tag,
    and no delegate is called at all. *)
Lemma delegate_selection_unresolved_source :
  constructed (World.handler World.not_found) 0%nat World.untagged_copy
    tt (World.repo "repo-a" "v1") (World.repo "repo-b" "") 3%nat /\
  registry.Reference_ (remote.Reference (World.repo "repo-a" "v1")) <> "" /\
  delegates (fst (World.run World.not_found World.untagged_copy)) = [] /\
  snd (World.run World.not_found World.untagged_copy)
  = Some (ErrCollaborator "not found").
Proof.
  split; [|split; [|split]].
  - exists 1%nat, 2%nat. repeat split; reflexivity.
  - discriminate.
  - reflexivity.
  - reflexivity.
Qed.

(** C3, as stated, in scenario 1: the handles carry the tag [v1], yet the
    reference strings handed to [Copy] are not the tags. *)
Lemma scenario_tagged_copy_full_references :
  constructed (World.handler World.healthy) 0%nat World.tagged_copy
    tt (World.repo "repo-a" "v1") (World.repo "repo-b" "v1") 3%nat /\
  delegates (fst (World.run World.healthy World.tagged_copy)) = [ViaCopy] /\
  omap reference_args (fst (World.run World.healthy World.tagged_copy))
  = [("repo-a:v1", "repo-b:v1")] /\
  omap reference_args (fst (World.run World.healthy World.tagged_copy))
  <> [("v1", "v1")].
Proof.
  split; [|split; [|split]].
  - exists 1%nat, 2%nat. repeat split; reflexivity.
  - reflexivity.
  - reflexivity.
  - discriminate.
Qed.


(** ** The further properties at work in the small world *)

Lemma copyCmd_too_few_arguments_witness :
  cobra.execute
    (copyCmd World.short World.defaults World.extended_defaults
       (World.options false false "" ""))
    ["repo-a:v1"]
  = Some (Ret (Some (ErrTooFewArgs 2 1))) /\
  cobra.RunE
    (copyCmd World.short World.defaults World.extended_defaults
       (World.options false false "" ""))
    ["repo-a:v1"]
  = None.
Proof.
  destruct (copyCmd_too_few_arguments unit unit unit World.short
              World.defaults World.extended_defaults
              (World.options false false "" "") ["repo-a:v1"])
    as (Hrejected & Hpanic & _).
  - cbn. lia.
  - split; [exact Hrejected | exact Hpanic].
Defined.

Lemma source_client_failure_witness :
  World.run World.healthy (World.options false false "bogus" "repo-b:v1")
  = ([Answered (SetLoggerLevel {| optionpkg.Verbose := false |}) tt;
      Answered (NewRepository tt "bogus" {| optionpkg.Verbose := false |})
        (World.repo "" "", Some (ErrCollaborator "invalid reference"))],
     Some (ErrCollaborator "invalid reference")).
Proof.
  apply (source_client_failure unit unit unit World.short
           World.defaults World.extended_defaults nat
           (World.handler World.healthy) 0%nat 1%nat 2%nat
           (World.options false false "bogus" "repo-b:v1")
           tt (World.repo "" "") (ErrCollaborator "invalid reference")
           eq_refl eq_refl).
Defined.

Lemma destination_client_failure_witness :
  registry.Reference_ (remote.Reference (World.repo "repo-a" "")) = "" /\
  World.run World.healthy (World.options false false "repo-a" "bogus")
  = ([Answered (SetLoggerLevel {| optionpkg.Verbose := false |}) tt;
      Answered (NewRepository tt "repo-a" {| optionpkg.Verbose := false |})
        (World.repo "repo-a" "", None);
      Answered (NewRepository tt "bogus" {| optionpkg.Verbose := false |})
        (World.repo "" "", Some (ErrCollaborator "invalid reference"))],
     Some (ErrCollaborator "invalid reference")).
Proof.
  split; [reflexivity|].
  apply (destination_client_failure unit unit unit World.short
           World.defaults World.extended_defaults nat
           (World.handler World.healthy) 0%nat 1%nat 2%nat 3%nat
           (World.options false false "repo-a" "bogus")
           tt (World.repo "repo-a" "") (World.repo "" "")
           (ErrCollaborator "invalid reference")
           eq_refl eq_refl eq_refl).
Defined.

Lemma unresolved_source_stops_witness :
  constructed (World.handler World.not_found) 0%nat World.untagged_recursive_copy
    tt (World.repo "repo-a" "v1") (World.repo "repo-b" "") 3%nat /\
  snd (World.run World.not_found World.untagged_recursive_copy)
  = Some (ErrCollaborator "not found") /\
  List.length (fst (World.run World.not_found World.untagged_recursive_copy)) = 4%nat.
Proof.
  assert (Hc : constructed (World.handler World.not_found) 0%nat
                 World.untagged_recursive_copy
                 tt (World.repo "repo-a" "v1") (World.repo "repo-b" "") 3%nat).
  { exists 1%nat, 2%nat. repeat split; reflexivity. }
  split; [exact Hc|].
  assert (Hsrc : registry.Reference_ (remote.Reference (World.repo "repo-a" "v1"))
                 <> "") by discriminate.
  pose proof (unresolved_source_stops unit unit unit World.short
                World.defaults World.extended_defaults nat
                (World.handler World.not_found) 0%nat 3%nat 4%nat
                World.untagged_recursive_copy
                tt (World.repo "repo-a" "v1") (World.repo "repo-b" "")
                World.zero_desc (ErrCollaborator "not found")
                Hc Hsrc eq_refl eq_refl) as Hrun.
  split.
  - exact (f_equal snd Hrun).
  - exact (f_equal (fun r => List.length (fst r)) Hrun).
Defined.

Lemma tagged_transfer_arguments_witness :
  exists c,
    c ∈ fst (World.run World.healthy World.tagged_copy) /\
    reference_args c = Some ("repo-a:v1", "repo-b:v1") /\
    network_calls (fst (World.run World.healthy World.tagged_copy)) = [c].
Proof.
  assert (Hin :
    Answered
      (Copy tt (World.repo "repo-a" "v1") "repo-a:v1"
         (World.repo "repo-b" "v1") "repo-b:v1"
         (cpOpts World.short World.defaults World.tagged_copy))
      (World.D, None)
    ∈ fst (World.run World.healthy World.tagged_copy)).
  { do 3 right. left. }
  eexists. split; [exact Hin | split; [reflexivity|]].
  apply (tagged_transfer_arguments unit unit unit World.short
           World.defaults World.extended_defaults nat
           (World.handler World.healthy) 0%nat World.tagged_copy
           _ ("repo-a:v1", "repo-b:v1") Hin eq_refl).
Defined.

Lemma graph_transfer_root_witness :
  exists c,
    c ∈ fst (World.run World.healthy World.untagged_copy) /\
    graph_args c
    = Some (World.repo "repo-a" "v1", World.repo "repo-b" "", World.D) /\
    exists ctx,
      Answered (Resolve ctx (World.repo "repo-a" "v1") "v1") (World.D, None)
      ∈ fst (World.run World.healthy World.untagged_copy).
Proof.
  assert (Hin :
    Answered
      (CopyGraph tt (World.repo "repo-a" "v1") (World.repo "repo-b" "") World.D
         (CopyGraphOptions_ (cpOpts World.short World.defaults World.untagged_copy)))
      None
    ∈ fst (World.run World.healthy World.untagged_copy)).
  { do 4 right. left. }
  eexists. split; [exact Hin | split; [reflexivity|]].
  apply (graph_transfer_root unit unit unit World.short
           World.defaults World.extended_defaults nat
           (World.handler World.healthy) 0%nat World.untagged_copy
           _ (World.repo "repo-a" "v1") (World.repo "repo-b" "") World.D
           Hin eq_refl).
Defined.

Lemma preCopy_silent_iff_witness :
  fst (exec World.sink (preCopy World.short World.tagged_copy tt World.layer) 0%nat)
  = [] /\
  exists a r,
    exec World.sink
      (preCopy World.short (World.options false true "repo-a:v1" "repo-b:v1")
         tt World.layer) 0%nat
    = ([Answered (display.Print a) r], r).
Proof.
  split.
  - apply (proj1 (preCopy_silent_iff unit unit World.short nat World.sink 0%nat
                    World.tagged_copy tt World.layer)).
    split; reflexivity.
  - apply (proj2 (preCopy_silent_iff unit unit World.short nat World.sink 0%nat
                    (World.options false true "repo-a:v1" "repo-b:v1")
                    tt World.layer)).
    discriminate.
Defined.
